(** * The dynamic-node-parameters controller

    A shallow embedding of
    [packages/cli/src/controllers/dynamicNodeParameters.controller.ts]:
    the two middlewares ([assertMethodName], [parseQueryParams]), the three
    route handlers ([getOptions], [getResourceLocatorResults],
    [getResourceMappingFields]) and the chain that serves one request.

    The controller is effectful only through the functions it calls:
    [jsonParse], [getBase] and the four methods of
    [DynamicNodeParametersService].  A run of the controller is therefore a
    computation in a small monad that threads the state of the outside world,
    records every call that is made, in order, and stops at the first value
    that is thrown. *)

From Stdlib Require Import String Ascii List Bool Arith Lia.
Import ListNotations.
Open Scope string_scope.

Set Implicit Arguments.

(** ** Query strings *)

(** [if (x)] and [!x] on a query value: [undefined] and the empty string are
    falsy, every other string is truthy.  The result is the narrowed value. *)
Definition truthy (v : option string) : option string :=
  match v with
  | Some (String c s) => Some (String c s)
  | Some EmptyString => None
  | None => None
  end.

(** The keys of [req.query] the controller reads.  Each one may be missing at
    run time, whatever the request types declare. *)
Module Query.
Record t : Type := Build {
  path : option string;
  nodeTypeAndVersion : option string;
  currentNodeParameters : option string;
  methodName : option string;
  credentials : option string;
  loadOptions : option string;
  filter : option string;
  paginationToken : option string
}.

Definition empty : t := Build None None None None None None None None.
End Query.

(** The optional keys, and the query with one of them replaced. *)
Inductive OptionalField : Type :=
| FMethodName | FLoadOptions | FCredentials | FFilter | FPaginationToken.

Definition setField (f : OptionalField) (v : option string) (q : Query.t)
  : Query.t :=
  match f with
  | FMethodName =>
      Query.Build (Query.path q) (Query.nodeTypeAndVersion q)
        (Query.currentNodeParameters q) v (Query.credentials q)
        (Query.loadOptions q) (Query.filter q) (Query.paginationToken q)
  | FLoadOptions =>
      Query.Build (Query.path q) (Query.nodeTypeAndVersion q)
        (Query.currentNodeParameters q) (Query.methodName q)
        (Query.credentials q) v (Query.filter q) (Query.paginationToken q)
  | FCredentials =>
      Query.Build (Query.path q) (Query.nodeTypeAndVersion q)
        (Query.currentNodeParameters q) (Query.methodName q) v
        (Query.loadOptions q) (Query.filter q) (Query.paginationToken q)
  | FFilter =>
      Query.Build (Query.path q) (Query.nodeTypeAndVersion q)
        (Query.currentNodeParameters q) (Query.methodName q)
        (Query.credentials q) (Query.loadOptions q) v
        (Query.paginationToken q)
  | FPaginationToken =>
      Query.Build (Query.path q) (Query.nodeTypeAndVersion q)
        (Query.currentNodeParameters q) (Query.methodName q)
        (Query.credentials q) (Query.loadOptions q) (Query.filter q) v
  end.

(** [needle] occurs in [message]. *)
Definition mentions (needle message : string) : bool :=
  match String.index 0 needle message with
  | Some _ => true
  | None => false
  end.

(** ** Requests *)

Record User : Type := { id : string }.

(** [AuthenticatedRequest<RouteParams, ..., RequestQuery>]: the type of
    [req.params] changes when [parseQueryParams] assigns it. *)
Record Request (P : Type) : Type := {
  user : User;
  query : Query.t;
  params : P
}.

(** The same request with another query string. *)
Definition withQuery {P} (q : Query.t) (req : Request P) : Request P :=
  {| user := user req; query := q; params := params req |}.

(** The value [parseQueryParams] stores in [req.params]. *)
Module Params.
Record t (Json : Type) : Type := Build {
  nodeTypeAndVersion : Json;
  currentNodeParameters : Json;
  credentials : option Json
}.
End Params.

(** The three routes of the controller. *)
Inductive Endpoint : Type :=
| Options                  (* GET /options *)
| ResourceLocatorResults   (* GET /resource-locator-results *)
| ResourceMapperFields.    (* GET /resource-mapper-fields *)

(** The registration code of [@/decorators], which chains the [@Middleware]
    of the controller and the [middlewares] of a route in front of the
    handler, is not part of the sources.  It can put either first. *)
Inductive Chaining : Type :=
| RouteMiddlewaresFirst
| ControllerMiddlewareFirst.

(** ** Thrown values, calls and runs *)

(** What can be thrown while a request is served.  [Failure] stands for every
    value the controller does not construct itself. *)
Inductive Thrown (Failure : Type) : Type :=
| BadRequestError (message : string)
| ParseError (text : string)
| Other (e : Failure).
Arguments BadRequestError {Failure} message.
Arguments ParseError {Failure} text.
Arguments Other {Failure} e.

(** [new BadRequestError('Parameter <field> is required.')] *)
Definition missingParameter {Failure} (field : string) : Thrown Failure :=
  BadRequestError ("Parameter " ++ field ++ " is required.").

(** Modelled from the spec: the mapping from a thrown value to the class of
    the HTTP response is done by the response helper and the error classes of
    [@/ResponseHelper], which are not part of the sources.  Missing-parameter
    and malformed-JSON failures are client faults (status 400); a failure of a
    collaborator has the status that collaborator declares. *)
Definition httpStatus {Failure} (declared : Failure -> nat)
  (t : Thrown Failure) : nat :=
  match t with
  | BadRequestError _ => 400
  | ParseError _ => 400
  | Other e => declared e
  end.

Definition isClientFault {Failure} (declared : Failure -> nat)
  (t : Thrown Failure) : bool :=
  ((400 <=? httpStatus declared t) && (httpStatus declared t <? 500))%nat.

(** An asynchronous call to the outside: it may change the world, and it
    either returns a value or throws. *)
Definition Async (World Failure A : Type) : Type :=
  World -> (Thrown Failure + A) * World.

(** The methods of [DynamicNodeParametersService] the controller calls. *)
Module DynamicNodeParametersService.
Record t (Json AdditionalData PropertyOption ListSearchResult MapperFields
          Failure World : Type) : Type := Build {
  getOptionsViaMethodName :
    string -> option string -> AdditionalData -> Json -> Json ->
    option Json -> Async World Failure (list PropertyOption);
  getOptionsViaLoadOptions :
    Json -> AdditionalData -> Json -> Json -> option Json ->
    Async World Failure (list PropertyOption);
  getResourceLocatorResults :
    option string -> option string -> AdditionalData -> Json -> Json ->
    option Json -> option string -> option string ->
    Async World Failure (option ListSearchResult);
  getResourceMappingFields :
    option string -> option string -> AdditionalData -> Json -> Json ->
    option Json -> Async World Failure (option MapperFields)
}.
End DynamicNodeParametersService.

Section Controller.

(** Values the controller only moves around: decoded JSON, the execution
    context, the results of the service.  They are type parameters, so no
    definition below can look inside or build one. *)
Context {Json AdditionalData PropertyOption ListSearchResult MapperFields
         Failure World : Type}.

(** Every call that leaves the controller, with its actual arguments. *)
Inductive Call : Type :=
| JsonParse (text : string)
| GetBase (userId : string) (currentNodeParameters : Json)
| GetOptionsViaMethodName
    (methodName : string) (path : option string)
    (additionalData : AdditionalData)
    (nodeTypeAndVersion currentNodeParameters : Json)
    (credentials : option Json)
| GetOptionsViaLoadOptions
    (loadOptions : Json)
    (additionalData : AdditionalData)
    (nodeTypeAndVersion currentNodeParameters : Json)
    (credentials : option Json)
| GetResourceLocatorResults
    (methodName path : option string)
    (additionalData : AdditionalData)
    (nodeTypeAndVersion currentNodeParameters : Json)
    (credentials : option Json)
    (filter paginationToken : option string)
| GetResourceMappingFields
    (methodName path : option string)
    (additionalData : AdditionalData)
    (nodeTypeAndVersion currentNodeParameters : Json)
    (credentials : option Json).

(** The result of running a computation from a state of the world. *)
Record Run (A : Type) : Type := {
  outcome : Thrown Failure + A;
  world : World;
  calls : list Call
}.

Definition M (A : Type) : Type := World -> Run A.

Definition ret {A} (a : A) : M A :=
  fun w => {| outcome := inr a; world := w; calls := [] |}.

Definition throw {A} (t : Thrown Failure) : M A :=
  fun w => {| outcome := inl t; world := w; calls := [] |}.

Definition bind {A B} (m : M A) (k : A -> M B) : M B :=
  fun w =>
    match m w with
    | {| outcome := inl t; world := w1; calls := l1 |} =>
        {| outcome := inl t; world := w1; calls := l1 |}
    | {| outcome := inr a; world := w1; calls := l1 |} =>
        match k a w1 with
        | {| outcome := r; world := w2; calls := l2 |} =>
            {| outcome := r; world := w2; calls := l1 ++ l2 |}
        end
    end.

(** A call to a collaborator: it is recorded, and its result or the value
    it throws becomes the result of the computation. *)
Definition perform {A} (c : Call)
  (f : Async World Failure A) : M A :=
  fun w =>
    {| outcome := fst (f w); world := snd (f w); calls := [c] |}.

Notation "x <- m ;; k" := (bind m (fun x => k))
  (at level 100, m at next level, right associativity).

(** *** The collaborators *)

(** The JSON decoding primitive: [None] on text that is not JSON. *)
Variable jsonDecode : string -> option Json.

(** Modelled from the spec: [jsonParse] of [n8n-workflow] is not part of
    the sources.  It decodes JSON text, and malformed JSON fails with a
    [ParseError]. *)
Definition jsonParse (text : string) : M Json :=
  perform (JsonParse text)
    (fun w =>
       match jsonDecode text with
       | Some v => (inr v, w)
       | None => (inl (ParseError text), w)
       end).

(** [getBase] of [@/WorkflowExecuteAdditionalData]: asynchronous, may
    throw. *)
Variable getBase : string -> Json -> Async World Failure AdditionalData.

(** The service injected through the constructor. *)
Variable service :
  DynamicNodeParametersService.t Json AdditionalData PropertyOption
    ListSearchResult MapperFields Failure World.

Definition awaitGetBase (userId : string) (currentNodeParameters : Json)
  : M AdditionalData :=
  perform (GetBase userId currentNodeParameters)
    (getBase userId currentNodeParameters).

(** *** Middlewares *)

(** [next()] hands the request to the rest of the chain. *)
Definition assertMethodName {P} (req : Request P) : M (Request P) :=
  match truthy (Query.methodName (query req)) with
  | None => throw (BadRequestError "Parameter methodName is required.")
  | Some _ => ret req
  end.

Definition parseQueryParams {P} (req : Request P)
  : M (Request (Params.t Json)) :=
  match truthy (Query.nodeTypeAndVersion (query req)) with
  | None =>
      throw (BadRequestError "Parameter nodeTypeAndVersion is required.")
  | Some nodeTypeAndVersion =>
      match truthy (Query.currentNodeParameters (query req)) with
      | None =>
          throw
            (BadRequestError "Parameter currentNodeParameters is required.")
      | Some currentNodeParameters =>
          a <- jsonParse nodeTypeAndVersion ;;
          b <- jsonParse currentNodeParameters ;;
          c <- match truthy (Query.credentials (query req)) with
               | Some credentials =>
                   v <- jsonParse credentials ;; ret (Some v)
               | None => ret None
               end ;;
          ret {| user := user req;
                 query := query req;
                 params := Params.Build a b c |}
      end
  end.

(** *** Route handlers *)

Definition getOptions (req : Request (Params.t Json))
  : M (list PropertyOption) :=
  let path := Query.path (query req) in
  let methodName := Query.methodName (query req) in
  let loadOptions := Query.loadOptions (query req) in
  let credentials := Params.credentials (params req) in
  let currentNodeParameters := Params.currentNodeParameters (params req) in
  let nodeTypeAndVersion := Params.nodeTypeAndVersion (params req) in
  additionalData <- awaitGetBase (id (user req)) currentNodeParameters ;;
  match truthy methodName with
  | Some methodName =>
      perform
        (GetOptionsViaMethodName methodName path additionalData
           nodeTypeAndVersion currentNodeParameters credentials)
        (DynamicNodeParametersService.getOptionsViaMethodName service
           methodName path additionalData
           nodeTypeAndVersion currentNodeParameters credentials)
  | None =>
      match truthy loadOptions with
      | Some loadOptions =>
          descriptor <- jsonParse loadOptions ;;
          perform
            (GetOptionsViaLoadOptions descriptor additionalData
               nodeTypeAndVersion currentNodeParameters credentials)
            (DynamicNodeParametersService.getOptionsViaLoadOptions service
               descriptor additionalData
               nodeTypeAndVersion currentNodeParameters credentials)
      | None => ret []
      end
  end.

Definition getResourceLocatorResults (req : Request (Params.t Json))
  : M (option ListSearchResult) :=
  let path := Query.path (query req) in
  let methodName := Query.methodName (query req) in
  let filter := Query.filter (query req) in
  let paginationToken := Query.paginationToken (query req) in
  let credentials := Params.credentials (params req) in
  let currentNodeParameters := Params.currentNodeParameters (params req) in
  let nodeTypeAndVersion := Params.nodeTypeAndVersion (params req) in
  additionalData <- awaitGetBase (id (user req)) currentNodeParameters ;;
  perform
    (GetResourceLocatorResults methodName path additionalData
       nodeTypeAndVersion currentNodeParameters credentials
       filter paginationToken)
    (DynamicNodeParametersService.getResourceLocatorResults service
       methodName path additionalData
       nodeTypeAndVersion currentNodeParameters credentials
       filter paginationToken).

Definition getResourceMappingFields (req : Request (Params.t Json))
  : M (option MapperFields) :=
  let path := Query.path (query req) in
  let methodName := Query.methodName (query req) in
  let credentials := Params.credentials (params req) in
  let currentNodeParameters := Params.currentNodeParameters (params req) in
  let nodeTypeAndVersion := Params.nodeTypeAndVersion (params req) in
  additionalData <- awaitGetBase (id (user req)) currentNodeParameters ;;
  perform
    (GetResourceMappingFields methodName path additionalData
       nodeTypeAndVersion currentNodeParameters credentials)
    (DynamicNodeParametersService.getResourceMappingFields service
       methodName path additionalData
       nodeTypeAndVersion currentNodeParameters credentials).

(** *** Serving a request *)

(** What each route answers with. *)
Definition Result (e : Endpoint) : Type :=
  match e with
  | Options => list PropertyOption
  | ResourceLocatorResults => option ListSearchResult
  | ResourceMapperFields => option MapperFields
  end.

Definition handler (e : Endpoint)
  : Request (Params.t Json) -> M (Result e) :=
  match e with
  | Options => getOptions
  | ResourceLocatorResults => getResourceLocatorResults
  | ResourceMapperFields => getResourceMappingFields
  end.

(** The [middlewares] option of the route decorator. *)
Definition routeMiddlewares (e : Endpoint) {P} (req : Request P)
  : M (Request P) :=
  match e with
  | Options => ret req
  | ResourceLocatorResults => assertMethodName req
  | ResourceMapperFields => assertMethodName req
  end.

(** Modelled from the spec: the order in which the middlewares of a route
    and the [@Middleware] of the controller are chained is fixed by the
    registration code of [@/decorators], which is not part of the sources.
    The method-name check runs before any other validation of the call. *)
Definition validate (e : Endpoint) {P} (req : Request P)
  : M (Request (Params.t Json)) :=
  req1 <- routeMiddlewares e req ;;
  parseQueryParams req1.

(** One request: the middlewares, then the handler of the route. *)
Definition serve (e : Endpoint) (req : Request unit) : M (Result e) :=
  req' <- validate e req ;;
  handler e req'.

(** The middlewares of a route in a given chaining; [validate] is the one
    with the middlewares of the route first. *)
Definition validateIn (o : Chaining) (e : Endpoint) {P} (req : Request P)
  : M (Request (Params.t Json)) :=
  match o with
  | RouteMiddlewaresFirst => validate e req
  | ControllerMiddlewareFirst =>
      req1 <- parseQueryParams req ;;
      routeMiddlewares e req1
  end.

(** One request in a given chaining. *)
Definition serveIn (o : Chaining) (e : Endpoint) (req : Request unit)
  : M (Result e) :=
  req' <- validateIn o e req ;;
  handler e req'.

(** *** Reading the record of calls *)

(** The calls to the resolution service. *)
Definition isResolution (c : Call) : bool :=
  match c with
  | GetOptionsViaMethodName _ _ _ _ _ _ => true
  | GetOptionsViaLoadOptions _ _ _ _ _ => true
  | GetResourceLocatorResults _ _ _ _ _ _ _ _ => true
  | GetResourceMappingFields _ _ _ _ _ _ => true
  | _ => false
  end.

Definition isGetBase (c : Call) : bool :=
  match c with
  | GetBase _ _ => true
  | _ => false
  end.

Definition isJsonParse (c : Call) : bool :=
  match c with
  | JsonParse _ => true
  | _ => false
  end.

Definition resolutions (l : list Call) : list Call :=
  List.filter isResolution l.

Definition contextBuilds (l : list Call) : list Call :=
  List.filter isGetBase l.

Definition decodings (l : list Call) : list Call :=
  List.filter isJsonParse l.


(** The texts [parseQueryParams] hands to [jsonParse], in order, when no
    decoding fails. *)
Definition present (v : option string) : list string :=
  match truthy v with
  | Some text => [text]
  | None => []
  end.

Definition structuredTexts (q : Query.t) : list string :=
  present (Query.nodeTypeAndVersion q)
    ++ present (Query.currentNodeParameters q)
    ++ present (Query.credentials q).

(** The method of the service a recorded call stands for, when it is one
    the route [e] can answer with. *)
Definition resolve (e : Endpoint) (c : Call)
  : option (Async World Failure (Result e)) :=
  match e, c with
  | Options, GetOptionsViaMethodName m p ad n cp cr =>
      Some (DynamicNodeParametersService.getOptionsViaMethodName
              service m p ad n cp cr)
  | Options, GetOptionsViaLoadOptions d ad n cp cr =>
      Some (DynamicNodeParametersService.getOptionsViaLoadOptions
              service d ad n cp cr)
  | ResourceLocatorResults, GetResourceLocatorResults m p ad n cp cr f t =>
      Some (DynamicNodeParametersService.getResourceLocatorResults
              service m p ad n cp cr f t)
  | ResourceMapperFields, GetResourceMappingFields m p ad n cp cr =>
      Some (DynamicNodeParametersService.getResourceMappingFields
              service m p ad n cp cr)
  | _, _ => None
  end.

End Controller.

Arguments Call : clear implicits.
Arguments Run : clear implicits.
Arguments M : clear implicits.

(** ** More readings of a recorded call *)

Section CallArguments.

Context {Json AdditionalData : Type}.

(** The parameter snapshot a call was given: the second argument of
    [getBase], the [currentNodeParameters] argument of a service method. *)
Definition snapshotOf (c : Call Json AdditionalData) : option Json :=
  match c with
  | JsonParse _ => None
  | GetBase _ p => Some p
  | GetOptionsViaMethodName _ _ _ _ cp _ => Some cp
  | GetOptionsViaLoadOptions _ _ _ cp _ => Some cp
  | GetResourceLocatorResults _ _ _ _ cp _ _ _ => Some cp
  | GetResourceMappingFields _ _ _ _ cp _ => Some cp
  end.

(** The [nodeTypeAndVersion] argument of a call to the service. *)
Definition nodeTypeOf (c : Call Json AdditionalData) : option Json :=
  match c with
  | GetOptionsViaMethodName _ _ _ n _ _ => Some n
  | GetOptionsViaLoadOptions _ _ n _ _ => Some n
  | GetResourceLocatorResults _ _ _ n _ _ _ _ => Some n
  | GetResourceMappingFields _ _ _ n _ _ => Some n
  | _ => None
  end.

(** The [additionalData] argument of a call to the service. *)
Definition contextOf (c : Call Json AdditionalData)
  : option AdditionalData :=
  match c with
  | GetOptionsViaMethodName _ _ ad _ _ _ => Some ad
  | GetOptionsViaLoadOptions _ ad _ _ _ => Some ad
  | GetResourceLocatorResults _ _ ad _ _ _ _ _ => Some ad
  | GetResourceMappingFields _ _ ad _ _ _ => Some ad
  | _ => None
  end.

(** The [path] argument of the calls that have one. *)
Definition pathOf (c : Call Json AdditionalData) : option (option string) :=
  match c with
  | GetOptionsViaMethodName _ p _ _ _ _ => Some p
  | GetResourceLocatorResults _ p _ _ _ _ _ _ => Some p
  | GetResourceMappingFields _ p _ _ _ _ => Some p
  | _ => None
  end.

(** The [methodName] argument of the calls that have one, as a query
    value. *)
Definition methodNameOf (c : Call Json AdditionalData)
  : option (option string) :=
  match c with
  | GetOptionsViaMethodName m _ _ _ _ _ => Some (Some m)
  | GetResourceLocatorResults m _ _ _ _ _ _ _ => Some m
  | GetResourceMappingFields m _ _ _ _ _ => Some m
  | _ => None
  end.

End CallArguments.

(** The optional keys a route takes from [req.query]: [credentials] in
    [parseQueryParams]; [methodName] and [loadOptions] in [getOptions];
    [methodName], [filter] and [paginationToken] in
    [getResourceLocatorResults]; [methodName] in
    [getResourceMappingFields]. *)
Definition destructures (e : Endpoint) (f : OptionalField) : bool :=
  match e, f with
  | _, FCredentials => true
  | _, FMethodName => true
  | Options, FLoadOptions => true
  | ResourceLocatorResults, FFilter => true
  | ResourceLocatorResults, FPaginationToken => true
  | _, _ => false
  end.

(** ** A concrete deployment

    Stand-ins for the collaborators, used to run the controller on concrete
    requests. *)
Module Example.

#[warnings="-register-all"] Inductive Json : Type :=
| JNumber (n : nat)
| JString (s : string)
| JObject (members : list (string * Json)).

Definition quote : string := String (ascii_of_nat 34) EmptyString.

(** The text [{"name":"n8n-nodes-base.httpRequest","version":1}]. *)
Definition httpRequestNode : string :=
  "{" ++ quote ++ "name" ++ quote ++ ":"
      ++ quote ++ "n8n-nodes-base.httpRequest" ++ quote ++ ","
      ++ quote ++ "version" ++ quote ++ ":1}".

(** The text [{"httpBasicAuth":{"id":"7"}}]. *)
Definition basicAuth : string :=
  "{" ++ quote ++ "httpBasicAuth" ++ quote ++ ":{"
      ++ quote ++ "id" ++ quote ++ ":" ++ quote ++ "7" ++ quote ++ "}}".

(** The decoder on the texts the examples send; [not-json] and every other
    text outside this table is rejected. *)
Definition decode (text : string) : option Json :=
  if String.eqb text "{}" then Some (JObject [])
  else if String.eqb text httpRequestNode then
    Some (JObject [("name", JString "n8n-nodes-base.httpRequest");
                   ("version", JNumber 1)])
  else if String.eqb text basicAuth then
    Some (JObject [("httpBasicAuth", JObject [("id", JString "7")])])
  else None.

(** A failure of a collaborator: the status it declares and its message. *)
Definition Failure : Type := (nat * string)%type.

(** The world counts the calls that reached a collaborator. *)
Definition World : Type := nat.

(** The execution context names the user it was built for.  No context can
    be built for the user [ghost]. *)
Definition AdditionalData : Type := string.

Definition getBase (userId : string) (currentNodeParameters : Json)
  : Async World Failure AdditionalData :=
  fun w =>
    if String.eqb userId "ghost"
    then (inl (Other (500, "no runtime context")), S w)
    else (inr userId, S w).

Definition PropertyOption : Type := (string * string)%type.
Definition ListSearchResult : Type := list PropertyOption.
Definition MapperFields : Type := list string.

(** The service knows the methods [getUrls] and [searchSheets]; any other
    method name is answered with a fault of status 500. *)
Definition service :
  DynamicNodeParametersService.t Json AdditionalData PropertyOption
    ListSearchResult MapperFields Failure World :=
  DynamicNodeParametersService.Build
    (fun methodName _ _ _ _ _ w =>
       if String.eqb methodName "getUrls"
       then (inr [("A", "a")], S w)
       else (inl (Other (500, "upstream unreachable")), S w))
    (fun _ _ _ _ _ w => (inr [("B", "b")], S w))
    (fun methodName _ _ _ _ _ filter _ w =>
       match methodName with
       | Some "searchSheets" =>
           match filter with
           | Some _ => (inr (Some [("Sheet", "s1")]), S w)
           | None => (inr None, S w)
           end
       | _ => (inl (Other (500, "upstream unreachable")), S w)
       end)
    (fun methodName _ _ _ _ _ w =>
       match methodName with
       | Some "searchSheets" => (inr (Some ["id"; "title"]), S w)
       | _ => (inr None, S w)
       end).

Definition declared (e : Failure) : nat := fst e.

Definition request (userId : string) (q : Query.t) : Request unit :=
  {| user := {| id := userId |}; query := q; params := tt |}.

(** The controller wired to the stand-ins. *)
Definition serve (e : Endpoint) (req : Request unit)
  : M Json AdditionalData Failure World (Result e) :=
  serve decode getBase service e req.

Definition validate (e : Endpoint) (req : Request unit)
  : M Json AdditionalData Failure World (Request (Params.t Json)) :=
  validate decode e req.

(** [GET /options?nodeTypeAndVersion=...&currentNodeParameters={}
     &path=parameters.url] without a mode selector. *)
Definition baseQuery : Query.t :=
  Query.Build (Some "parameters.url") (Some httpRequestNode) (Some "{}")
    None None None None None.

(** The same with [methodName=getUrls] and [loadOptions={}]. *)
Definition bothSelectors : Query.t :=
  setField FMethodName (Some "getUrls")
    (setField FLoadOptions (Some "{}") baseQuery).

(** A locator search with credentials and an empty filter:
    [methodName=searchSheets&credentials=...&filter=]. *)
Definition sheetSearch : Query.t :=
  setField FMethodName (Some "searchSheets")
    (setField FCredentials (Some basicAuth)
       (setField FFilter (Some "") baseQuery)).

Definition nodeType : Json :=
  JObject [("name", JString "n8n-nodes-base.httpRequest");
           ("version", JNumber 1)].

Definition basicAuthReference : Json :=
  JObject [("httpBasicAuth", JObject [("id", JString "7")])].

(** What [parseQueryParams] makes of a request with the node type and the
    snapshot of [baseQuery]. *)
Definition accepted (userId : string) (q : Query.t)
  (credentials : option Json) : Request (Params.t Json) :=
  {| user := {| id := userId |};
     query := q;
     params := Params.Build nodeType (JObject []) credentials |}.

Definition parseQueryParams (req : Request unit)
  : M Json AdditionalData Failure World (Request (Params.t Json)) :=
  parseQueryParams decode req.

(** [sheetSearch] with a snapshot that is not JSON. *)
Definition brokenSnapshot : Query.t :=
  Query.Build (Some "parameters.url") (Some httpRequestNode)
    (Some "not-json") (Some "searchSheets") (Some basicAuth) None None None.

(** [baseQuery] with [loadOptions=not-json]. *)
Definition brokenDescriptor : Query.t :=
  setField FLoadOptions (Some "not-json") baseQuery.

Definition serveIn (o : Chaining) (e : Endpoint) (req : Request unit)
  : M Json AdditionalData Failure World (Result e) :=
  serveIn decode getBase service o e req.


(** [baseQuery] with [methodName=] and [loadOptions=not-json]. *)
Definition emptyMethodName : Query.t :=
  setField FMethodName (Some "") brokenDescriptor.

End Example.

(** * Properties *)

Unset Implicit Arguments.

Section Properties.

Local Open Scope list_scope.

Context {Json AdditionalData PropertyOption ListSearchResult MapperFields
         Failure World : Type}.
Variable jsonDecode : string -> option Json.
Variable getBase : string -> Json -> Async World Failure AdditionalData.
Variable service :
  DynamicNodeParametersService.t Json AdditionalData PropertyOption
    ListSearchResult MapperFields Failure World.

Local Abbreviation validated e req w :=
  (@validate Json AdditionalData Failure World jsonDecode e _ req w).
Local Abbreviation served e req w :=
  (serve jsonDecode getBase service e req w).
Local Abbreviation handled e req w :=
  (handler jsonDecode getBase service e req w).
Local Abbreviation parsed req w :=
  (@parseQueryParams Json AdditionalData Failure World jsonDecode _ req w).
Local Abbreviation asserted req w :=
  (@assertMethodName Json AdditionalData Failure World _ req w).
Local Abbreviation servedIn o e req w :=
  (serveIn jsonDecode getBase service o e req w).

(** Case analysis on the tests the controller makes: the truthiness of a
    query value, the result of a decoding, the result of [getBase]. *)
Ltac step :=
  match goal with
  | H : truthy ?x = _ |- context [truthy ?x] => rewrite H
  | H : jsonDecode ?x = _ |- context [jsonDecode ?x] => rewrite H
  | H : getBase ?a ?b ?c = _ |- context [getBase ?a ?b ?c] => rewrite H
  | |- context [truthy ?x] => destruct (truthy x) eqn:?
  | |- context [jsonDecode ?x] => destruct (jsonDecode x) eqn:?
  | |- context [getBase ?a ?b ?c] =>
      destruct (getBase a b c) as [[?|?] ?] eqn:?
  end; cbn.

Ltac open_run :=
  unfold serveIn, validateIn, serve, validate, routeMiddlewares, handler, getOptions,
    getResourceLocatorResults, getResourceMappingFields, parseQueryParams,
    assertMethodName, awaitGetBase, jsonParse, perform, bind, ret, throw;
  cbn.

(** Validation leaves the world as it found it. *)
Lemma validate_world (e : Endpoint) {P} (req : Request P) (w : World) :
  world (validated e req w) = w.
Proof.
  destruct e; open_run; repeat step; reflexivity.
Qed.

(** Validation only decodes, and only the three structured fields, in the
    order of the source, stopping at the first text that fails. *)
Lemma validate_calls (e : Endpoint) {P} (req : Request P) (w : World) :
  exists n,
    calls (validated e req w)
    = firstn n (map JsonParse (structuredTexts (query req))).
Proof.
  unfold structuredTexts, present.
  destruct e; open_run; repeat step.
  all: solve [ exists 0; reflexivity | exists 1; reflexivity
             | exists 2; reflexivity | exists 3; reflexivity ].
Qed.

Lemma decodings_only (texts : list string) (n : nat) :
  resolutions (firstn n (map (@JsonParse Json AdditionalData) texts)) = []
  /\ contextBuilds
       (firstn n (map (@JsonParse Json AdditionalData) texts)) = [].
Proof.
  unfold resolutions, contextBuilds.
  revert n; induction texts as [|text texts IH]; intros [|n]; cbn; auto.
Qed.

(** No collaborator is called while a request is validated. *)
Lemma validate_no_collaborator (e : Endpoint) {P} (req : Request P)
  (w : World) :
  resolutions (calls (validated e req w)) = []
  /\ contextBuilds (calls (validated e req w)) = [].
Proof.
  destruct (validate_calls e req w) as [n ->]. apply decodings_only.
Qed.

(** What a request that passed validation looks like. *)
Lemma validate_ok (e : Endpoint) {P} (req : Request P) (w : World)
  (req' : Request (Params.t Json)) :
  outcome (validated e req w) = inr req' ->
  user req' = user req
  /\ query req' = query req
  /\ (exists a, truthy (Query.nodeTypeAndVersion (query req)) = Some a
            /\ jsonDecode a = Some (Params.nodeTypeAndVersion (params req')))
  /\ (exists b, truthy (Query.currentNodeParameters (query req)) = Some b
            /\ jsonDecode b
               = Some (Params.currentNodeParameters (params req')))
  /\ match truthy (Query.credentials (query req)) with
     | Some c => exists v, jsonDecode c = Some v
                           /\ Params.credentials (params req') = Some v
     | None => Params.credentials (params req') = None
     end
  /\ (e <> Options -> truthy (Query.methodName (query req)) <> None)
  /\ calls (validated e req w)
     = map JsonParse (structuredTexts (query req)).
Proof.
  unfold structuredTexts, present.
  destruct e; open_run; repeat step; intros H;
    try discriminate H; injection H as <-; cbn;
    repeat split; eauto; try congruence.
Qed.

(** A request that fails validation is answered with what was thrown. *)
Lemma serve_rejected (e : Endpoint) (req : Request unit) (w : World)
  (t : Thrown Failure) :
  outcome (validated e req w) = inl t ->
  served e req w
  = {| outcome := inl t; world := w;
       calls := calls (validated e req w) |}.
Proof.
  intros H. pose proof (validate_world e req w) as Hw.
  unfold serve, bind.
  destruct (validated e req w) as [o w1 l]; cbn in *. now subst.
Qed.

(** A request that passes validation is answered by the handler of its
    route, run in the world validation started from. *)
Lemma serve_accepted (e : Endpoint) (req : Request unit) (w : World)
  (req' : Request (Params.t Json)) :
  outcome (validated e req w) = inr req' ->
  served e req w
  = {| outcome := outcome (handled e req' w);
       world := world (handled e req' w);
       calls := calls (validated e req w) ++ calls (handled e req' w) |}.
Proof.
  intros H. pose proof (validate_world e req w) as Hw.
  unfold serve, bind.
  destruct (validated e req w) as [o w1 l]; cbn in *. subst.
  now destruct (handled e req' w).
Qed.

(** Every handler starts by building the execution context, once. *)
Lemma handler_calls (e : Endpoint) (req' : Request (Params.t Json))
  (w : World) :
  exists after,
    calls (handled e req' w)
    = GetBase (id (user req'))
        (Params.currentNodeParameters (params req')) :: after
    /\ contextBuilds after = []
    /\ length (resolutions after) <= 1.
Proof.
  unfold contextBuilds, resolutions.
  destruct e; open_run; repeat step; eexists; split;
    try reflexivity; cbn; auto.
Qed.

(** When the context cannot be built, the handler stops there. *)
Lemma handler_context_failed (e : Endpoint)
  (req' : Request (Params.t Json)) (w w1 : World) (t : Thrown Failure) :
  getBase (id (user req')) (Params.currentNodeParameters (params req')) w
  = (inl t, w1) ->
  handled e req' w
  = {| outcome := inl t; world := w1;
       calls := [GetBase (id (user req'))
                   (Params.currentNodeParameters (params req'))] |}.
Proof.
  intros H. destruct e; open_run; repeat step; reflexivity.
Qed.

(** The first text of a list that is not JSON. *)
Lemma first_malformed (texts : list string) (text : string) :
  In text texts ->
  jsonDecode text = None ->
  exists before bad after,
    texts = before ++ bad :: after
    /\ Forall (fun s => jsonDecode s <> None) before
    /\ jsonDecode bad = None.
Proof.
  induction texts as [|s texts IH]; intros Hin Hbad; [contradiction|].
  destruct (jsonDecode s) as [v|] eqn:Hs.
  - destruct Hin as [-> | Hin]; [congruence|].
    destruct (IH Hin Hbad) as (before & bad & after & -> & Hall & Hnone).
    exists (s :: before), bad, after. repeat split; auto.
    constructor; [congruence | exact Hall].
  - exists [], s, texts. repeat split; auto.
Qed.

(** A list of decodings holds no call to a collaborator. *)
Lemma decodings_hold_no_collaborator (texts : list string) :
  contextBuilds (map (@JsonParse Json AdditionalData) texts) = []
  /\ resolutions (map (@JsonParse Json AdditionalData) texts) = [].
Proof.
  unfold contextBuilds, resolutions.
  induction texts as [|s texts [IHc IHr]]; cbn; auto.
Qed.

(** [parseQueryParams] checks that the two required keys are there before
    it does anything else, [nodeTypeAndVersion] first. *)
Lemma parseQueryParams_missing {P} (req : Request P) (w : World) :
  truthy (Query.nodeTypeAndVersion (query req)) = None
  \/ truthy (Query.currentNodeParameters (query req)) = None ->
  parsed req w
  = {| outcome :=
         inl (BadRequestError
                match truthy (Query.nodeTypeAndVersion (query req)) with
                | None => "Parameter nodeTypeAndVersion is required."
                | Some _ => "Parameter currentNodeParameters is required."
                end);
       world := w; calls := [] |}.
Proof.
  intros Hmissing. unfold parseQueryParams, throw.
  destruct (truthy (Query.nodeTypeAndVersion (query req))) as [a|];
    [|reflexivity].
  destruct (truthy (Query.currentNodeParameters (query req))) as [b|];
    [|reflexivity].
  destruct Hmissing; discriminate.
Qed.

(** With both required keys there, [parseQueryParams] decodes the supplied
    texts in order and stops at the first that is not JSON. *)
Lemma parseQueryParams_malformed {P} (req : Request P) (w : World)
  (before : list string) (text : string) (after : list string) :
  truthy (Query.nodeTypeAndVersion (query req)) <> None ->
  truthy (Query.currentNodeParameters (query req)) <> None ->
  structuredTexts (query req) = before ++ text :: after ->
  Forall (fun s => jsonDecode s <> None) before ->
  jsonDecode text = None ->
  parsed req w
  = {| outcome := inl (ParseError text); world := w;
       calls := map JsonParse (before ++ [text]) |}.
Proof.
  unfold structuredTexts, present. intros Hn Hc Htexts Hall Hbad.
  open_run.
  destruct (truthy (Query.nodeTypeAndVersion (query req))) as [a|];
    [|congruence].
  destruct (truthy (Query.currentNodeParameters (query req))) as [b|];
    [|congruence].
  cbn in *.
  destruct before as [|x before]; cbn in Htexts;
    injection Htexts as <- Htexts; [now rewrite Hbad|].
  inversion Hall as [|? ? Ha Hall']; subst.
  destruct (jsonDecode a) as [va|]; [cbn|congruence].
  destruct before as [|y before]; cbn in Htexts;
    injection Htexts as <- Htexts; [now rewrite Hbad|].
  inversion Hall' as [|? ? Hb Hall'']; subst.
  destruct (jsonDecode b) as [vb|]; [cbn|congruence].
  destruct (truthy (Query.credentials (query req))) as [c|];
    [|now destruct before].
  destruct before as [|z before]; cbn in Htexts;
    injection Htexts as <- Htexts; [now rewrite Hbad|].
  now destruct before.
Qed.

(** Whether the method-name check lets a request through: always on the
    options route, which has none. *)
Lemma assertMethodName_gate (e : Endpoint) {P} (req : Request P)
  (w : World) :
  (e = Options \/ truthy (Query.methodName (query req)) <> None ->
   @routeMiddlewares Json AdditionalData Failure World e P req w
   = {| outcome := inr req; world := w; calls := [] |})
  /\ (e <> Options -> truthy (Query.methodName (query req)) = None ->
      @routeMiddlewares Json AdditionalData Failure World e P req w
      = {| outcome := inl (BadRequestError
                             "Parameter methodName is required.");
           world := w; calls := [] |}).
Proof.
  unfold routeMiddlewares, assertMethodName, ret, throw.
  destruct e, (truthy (Query.methodName (query req))); split;
    intros; try reflexivity; intuition congruence.
Qed.

(** A request [parseQueryParams] refuses, in either chaining: it is refused
    with the same thrown value and the same decodings, unless the
    method-name check comes first and refuses it. *)
Lemma serveIn_refused (o : Chaining) (e : Endpoint) (req : Request unit)
  (w : World) (t : Thrown Failure) (l : list (Call Json AdditionalData)) :
  parsed req w = {| outcome := inl t; world := w; calls := l |} ->
  (o = ControllerMiddlewareFirst \/ e = Options
   \/ truthy (Query.methodName (query req)) <> None ->
   servedIn o e req w = {| outcome := inl t; world := w; calls := l |})
  /\ (o = RouteMiddlewaresFirst -> e <> Options ->
      truthy (Query.methodName (query req)) = None ->
      servedIn o e req w
      = {| outcome := inl (BadRequestError
                             "Parameter methodName is required.");
           world := w; calls := [] |}).
Proof.
  intros Hparsed.
  destruct (assertMethodName_gate e req w) as [Hpass Hstop].
  unfold serveIn, validateIn, validate, bind. split.
  - intros Hgate. destruct o.
    + destruct Hgate as [Ho | Hgate]; [discriminate|].
      rewrite (Hpass Hgate), Hparsed. reflexivity.
    + rewrite Hparsed. reflexivity.
  - intros -> He Hm. rewrite (Hstop He Hm). reflexivity.
Qed.


(** C2. On the resource-locator-results and resource-mapper-fields routes a
    request without a method name (the key is missing or empty) is refused
    with the client error that names [methodName].  Nothing is assumed
    about the other keys, and nothing has been decoded or called when the
    error is thrown: the check comes before every other validation, so a
    request that lacks both [methodName] and [nodeTypeAndVersion] reports
    [methodName]. *)
Theorem methodName_checked_first
  (e : Endpoint) (req : Request unit) (w : World) :
  e = ResourceLocatorResults \/ e = ResourceMapperFields ->
  truthy (Query.methodName (query req)) = None ->
  exists message,
    served e req w
    = {| outcome := inl (BadRequestError message); world := w; calls := [] |}
    /\ mentions "methodName" message = true
    /\ mentions "nodeTypeAndVersion" message = false.
Proof.
  intros He Hm. exists "Parameter methodName is required.".
  split; [|split; reflexivity].
  destruct He as [-> | ->]; open_run; repeat step; reflexivity.
Qed.

(** C3.  On every route, [parseQueryParams] refuses a request without
    [nodeTypeAndVersion] with the client error that names
    [nodeTypeAndVersion], and otherwise a request without
    [currentNodeParameters] with the client error that names
    [currentNodeParameters], whatever the other keys hold and before
    anything is decoded.  In either chaining of the middlewares such a
    request ends with a client error and without any call: no decoding, no
    execution context, no resolution.  The error is the one of
    [parseQueryParams] on the options route, on the two other routes when a
    method name is supplied, and on every route when [parseQueryParams] is
    chained first; the one request left is refused by the method-name check
    instead. *)
Theorem required_fields_checked
  (o : Chaining) (e : Endpoint) (req : Request unit) (w : World) :
  truthy (Query.nodeTypeAndVersion (query req)) = None
  \/ truthy (Query.currentNodeParameters (query req)) = None ->
  let field :=
    match truthy (Query.nodeTypeAndVersion (query req)) with
    | None => "nodeTypeAndVersion"
    | Some _ => "currentNodeParameters"
    end in
  parsed req w
  = {| outcome := inl (missingParameter field); world := w; calls := [] |}
  /\ (exists message,
         missingParameter field = BadRequestError (Failure:=Failure) message
         /\ mentions field message = true)
  /\ (exists message,
         servedIn o e req w
         = {| outcome := inl (BadRequestError message);
              world := w; calls := [] |})
  /\ (o = ControllerMiddlewareFirst \/ e = Options
      \/ truthy (Query.methodName (query req)) <> None ->
      servedIn o e req w
      = {| outcome := inl (missingParameter field);
           world := w; calls := [] |}).
Proof.
  intros Hmissing field.
  assert (Hparsed :
            parsed req w
            = {| outcome := inl (missingParameter field);
                 world := w; calls := [] |}).
  { rewrite (parseQueryParams_missing req w Hmissing). subst field.
    now destruct (truthy (Query.nodeTypeAndVersion (query req))). }
  destruct (serveIn_refused o e req w _ _ Hparsed) as [Hpass Hstop].
  split; [exact Hparsed|]. split; [|split; [|exact Hpass]].
  - subst field.
    destruct (truthy (Query.nodeTypeAndVersion (query req)));
      eexists; split; reflexivity.
  - destruct o; [|eexists; apply Hpass; now left].
    destruct e; try (eexists; apply Hpass; right; now left).
    all: destruct (truthy (Query.methodName (query req))) eqn:Hm;
      [ eexists; apply Hpass; right; right; congruence
      | eexists; apply Hstop; [reflexivity | discriminate | reflexivity] ].
Qed.

(** C6.  The execution context is never built for a request that fails
    validation.  For a request that passes validation it is built exactly
    once, for the user of the request and the decoded parameter snapshot:
    the call comes right after the decodings of validation, none of which
    reaches a collaborator, and before any call to the resolution service.
    When the builder throws, the request ends with the thrown value and no
    resolution call is made. *)
Theorem context_built_once_after_validation
  (e : Endpoint) (req : Request unit) (w : World) :
  (forall t, outcome (validated e req w) = inl t ->
             contextBuilds (calls (served e req w)) = []
             /\ resolutions (calls (served e req w)) = [])
  /\ (forall req', outcome (validated e req w) = inr req' ->
      let build :=
        GetBase (id (user req))
          (Params.currentNodeParameters (params req')) in
      exists after,
        calls (served e req w)
        = calls (validated e req w) ++ build :: after
        /\ contextBuilds (calls (validated e req w)) = []
        /\ resolutions (calls (validated e req w)) = []
        /\ contextBuilds after = []
        /\ contextBuilds (calls (served e req w)) = [build]
        /\ (forall t w1,
              getBase (id (user req))
                (Params.currentNodeParameters (params req')) w
              = (inl t, w1) ->
              outcome (served e req w) = inl t
              /\ world (served e req w) = w1
              /\ after = [])).
Proof.
  destruct (validate_no_collaborator e req w) as [Hres Hctx].
  split.
  - intros t Ht. rewrite (serve_rejected e req w t Ht). cbn. auto.
  - intros req' Hok build.
    destruct (validate_ok e req w req' Hok) as (Hu & _).
    destruct (handler_calls e req' w) as (after & Hcalls & Hnone & _).
    rewrite Hu in Hcalls.
    exists after. rewrite (serve_accepted e req w req' Hok). cbn.
    rewrite Hcalls. repeat split; auto.
    + unfold contextBuilds in *. rewrite filter_app, Hctx. cbn.
      now rewrite Hnone.
    + rewrite <- Hu in H.
      now rewrite (handler_context_failed e req' w w1 t H).
    + rewrite <- Hu in H.
      now rewrite (handler_context_failed e req' w w1 t H).
    + rewrite <- Hu in H.
      rewrite (handler_context_failed e req' w w1 t H) in Hcalls.
      cbn in Hcalls. now inversion Hcalls.
Qed.

(** C10.  The handler of the options route builds the execution context
    before it looks at the selectors.  With neither a method name nor a
    load-options descriptor, building the context is all it does: its
    answer is the empty list when the builder returns and the value the
    builder throws when it fails.  So an options request without selector
    that passed validation has its context built, once and as the only
    call after validation, fails when the builder fails, and never reaches
    the resolution service. *)
Theorem options_without_selector_builds_context
  (req : Request unit) (w : World) :
  (forall req' : Request (Params.t Json),
      truthy (Query.methodName (query req')) = None ->
      truthy (Query.loadOptions (query req')) = None ->
      let built :=
        getBase (id (user req'))
          (Params.currentNodeParameters (params req')) w in
      getOptions jsonDecode getBase service req' w
      = {| outcome := match fst built with
                      | inl t => inl t
                      | inr _ => inr []
                      end;
           world := snd built;
           calls := [GetBase (id (user req'))
                       (Params.currentNodeParameters (params req'))] |})
  /\ (forall req' : Request (Params.t Json),
        truthy (Query.methodName (query req)) = None ->
        truthy (Query.loadOptions (query req)) = None ->
        outcome (validated Options req w) = inr req' ->
        let build :=
          GetBase (id (user req))
            (Params.currentNodeParameters (params req')) in
        let built :=
          getBase (id (user req))
            (Params.currentNodeParameters (params req')) w in
        calls (served Options req w)
        = calls (validated Options req w) ++ [build]
        /\ contextBuilds (calls (served Options req w)) = [build]
        /\ resolutions (calls (served Options req w)) = []
        /\ world (served Options req w) = snd built
        /\ outcome (served Options req w)
           = match fst built with
             | inl t => inl t
             | inr _ => inr []
             end).
Proof.
  assert (Hhandler :
    forall req' : Request (Params.t Json),
      truthy (Query.methodName (query req')) = None ->
      truthy (Query.loadOptions (query req')) = None ->
      getOptions jsonDecode getBase service req' w
      = {| outcome :=
             match fst (getBase (id (user req'))
                          (Params.currentNodeParameters (params req')) w)
             with
             | inl t => inl t
             | inr _ => inr []
             end;
           world := snd (getBase (id (user req'))
                           (Params.currentNodeParameters (params req')) w);
           calls := [GetBase (id (user req'))
                       (Params.currentNodeParameters (params req'))] |}).
  { intros req' Hm Hl. open_run.
    destruct (getBase _ _ w) as [[t|ad] w1]; cbn; [reflexivity|].
    now rewrite Hm, Hl. }
  split; [exact Hhandler|].
  intros req' Hm Hl Hok build built.
  destruct (validate_ok Options req w req' Hok) as (Hu & Hq & _).
  destruct (validate_no_collaborator Options req w) as [Hres Hctx].
  rewrite (serve_accepted Options req w req' Hok).
  change (handled Options req' w)
    with (getOptions jsonDecode getBase service req' w).
  rewrite <- Hq in Hm, Hl. rewrite (Hhandler req' Hm Hl).
  unfold contextBuilds, resolutions in *. cbn [calls outcome world].
  rewrite !filter_app, Hres, Hctx.
  subst build built. rewrite <- Hu. repeat split; reflexivity.
Qed.

(** C1, amended.  On the options route the mode is chosen by the method
    name first.  Whatever becomes of the request, a call to the resolution
    service can only be the one of the selected mode: by method name when a
    method name is supplied (also when a descriptor is supplied as well),
    by descriptor when only a descriptor is supplied, none when neither is.
    Once the request has passed validation and its execution context is
    built, the selected call is made, exactly once; with neither selector
    the answer is the empty list, without any error. *)
Theorem options_mode_selection (req : Request unit) (w : World) :
  match truthy (Query.methodName (query req)),
        truthy (Query.loadOptions (query req)) with
  | Some m, _ =>
      forall c, In c (resolutions (calls (served Options req w))) ->
                exists ad n cp cr,
                  c = GetOptionsViaMethodName m (Query.path (query req))
                        ad n cp cr
  | None, Some lo =>
      forall c, In c (resolutions (calls (served Options req w))) ->
                exists d ad n cp cr,
                  jsonDecode lo = Some d
                  /\ c = GetOptionsViaLoadOptions d ad n cp cr
  | None, None => resolutions (calls (served Options req w)) = []
  end
  /\ forall req' ad w1,
      outcome (validated Options req w) = inr req' ->
      getBase (id (user req)) (Params.currentNodeParameters (params req')) w
      = (inr ad, w1) ->
      let n := Params.nodeTypeAndVersion (params req') in
      let cp := Params.currentNodeParameters (params req') in
      let cr := Params.credentials (params req') in
      match truthy (Query.methodName (query req)),
            truthy (Query.loadOptions (query req)) with
      | Some m, _ =>
          resolutions (calls (served Options req w))
          = [GetOptionsViaMethodName m (Query.path (query req)) ad n cp cr]
      | None, Some lo =>
          match jsonDecode lo with
          | Some d =>
              resolutions (calls (served Options req w))
              = [GetOptionsViaLoadOptions d ad n cp cr]
          | None =>
              resolutions (calls (served Options req w)) = []
              /\ outcome (served Options req w) = inl (ParseError lo)
          end
      | None, None =>
          resolutions (calls (served Options req w)) = []
          /\ outcome (served Options req w) = inr []
      end.
Proof.
  split.
  - unfold resolutions. open_run. repeat step; cbn;
      try reflexivity; intros c Hin;
      repeat (destruct Hin as [<- | Hin]); try contradiction; eauto 10.
  - intros req' ad w1 Hok Hbase n cp cr.
    destruct (validate_ok Options req w req' Hok) as (Hu & Hq & _).
    destruct (validate_no_collaborator Options req w) as [Hres _].
    rewrite (serve_accepted Options req w req' Hok).
    unfold resolutions in *. cbn [calls outcome world].
    rewrite !filter_app, Hres.
    rewrite <- Hu in Hbase. subst n cp cr.
    open_run. rewrite Hq, Hbase. cbn.
    repeat step; repeat split; reflexivity.
Qed.

Ltac pick_call H :=
  cbn in H; repeat (destruct H as [<- | H]; try discriminate); try easy.

(** C7.  Every request that passed validation and got its execution context
    is answered by one call to the resolution service, made in the world the
    context builder left, and the answer of the request is the result of
    that call as it is: the value it returns (the [undefined] of the locator
    and mapper methods included) or the value it throws.  This holds for the
    locator and mapper routes always, and for the options route in the mode
    that is selected (the descriptor mode when [loadOptions] decodes); the
    call is the last thing the request does.  Conversely a call to the
    resolution service found in the record of a request is the only one,
    and its result is the answer. *)
Theorem resolution_result_returned_unchanged
  (e : Endpoint) (req : Request unit) (w : World) :
  (forall c, In c (calls (served e req w)) -> isResolution c = true ->
     exists (f : Async World Failure (Result e)) u p ad w1,
       resolve service e c = Some f
       /\ resolutions (calls (served e req w)) = [c]
       /\ In (GetBase u p) (calls (served e req w))
       /\ getBase u p w = (inr ad, w1)
       /\ outcome (served e req w) = fst (f w1)
       /\ world (served e req w) = snd (f w1))
  /\ (forall req' ad w1,
        outcome (validated e req w) = inr req' ->
        getBase (id (user req))
          (Params.currentNodeParameters (params req')) w = (inr ad, w1) ->
        let q := query req in
        let n := Params.nodeTypeAndVersion (params req') in
        let cp := Params.currentNodeParameters (params req') in
        let cr := Params.credentials (params req') in
        let before :=
          calls (validated e req w) ++ [GetBase (id (user req)) cp] in
        (e = ResourceLocatorResults ->
         let result :=
           DynamicNodeParametersService.getResourceLocatorResults service
             (Query.methodName q) (Query.path q) ad n cp cr
             (Query.filter q) (Query.paginationToken q) w1 in
         served ResourceLocatorResults req w
         = {| outcome := fst result; world := snd result;
              calls :=
                before
                  ++ [GetResourceLocatorResults (Query.methodName q)
                        (Query.path q) ad n cp cr
                        (Query.filter q) (Query.paginationToken q)] |})
        /\ (e = ResourceMapperFields ->
            let result :=
              DynamicNodeParametersService.getResourceMappingFields service
                (Query.methodName q) (Query.path q) ad n cp cr w1 in
            served ResourceMapperFields req w
            = {| outcome := fst result; world := snd result;
                 calls :=
                   before
                     ++ [GetResourceMappingFields (Query.methodName q)
                           (Query.path q) ad n cp cr] |})
        /\ (e = Options ->
            forall m, truthy (Query.methodName q) = Some m ->
            let result :=
              DynamicNodeParametersService.getOptionsViaMethodName service
                m (Query.path q) ad n cp cr w1 in
            served Options req w
            = {| outcome := fst result; world := snd result;
                 calls :=
                   before
                     ++ [GetOptionsViaMethodName m (Query.path q)
                           ad n cp cr] |})
        /\ (e = Options ->
            truthy (Query.methodName q) = None ->
            forall lo d,
              truthy (Query.loadOptions q) = Some lo ->
              jsonDecode lo = Some d ->
              let result :=
                DynamicNodeParametersService.getOptionsViaLoadOptions
                  service d ad n cp cr w1 in
              served Options req w
              = {| outcome := fst result; world := snd result;
                   calls :=
                     before
                       ++ [JsonParse lo;
                           GetOptionsViaLoadOptions d ad n cp cr] |})).
Proof.
  split.
  - unfold resolutions.
    destruct e; open_run; repeat step; intros c Hin Hres; pick_call Hin;
      do 5 eexists;
      (split; [reflexivity|]); (split; [reflexivity|]);
      (split; [cbn; repeat (first [left; reflexivity | right])|]);
      (split; [eassumption|]); split; reflexivity.
  - intros req' ad w1 Hok Hbase q n cp cr before.
    destruct (validate_ok e req w req' Hok) as (Hu & Hq & _).
    rewrite <- Hu in Hbase. subst q n cp cr before. rewrite <- Hu, <- Hq.
    repeat split.
    + intros ->. rewrite (serve_accepted _ req w req' Hok).
      open_run. rewrite Hbase. cbn. now rewrite <- app_assoc.
    + intros ->. rewrite (serve_accepted _ req w req' Hok).
      open_run. rewrite Hbase. cbn. now rewrite <- app_assoc.
    + intros -> m Hm. rewrite (serve_accepted _ req w req' Hok).
      open_run. rewrite Hbase. cbn. rewrite Hm. cbn.
      now rewrite <- app_assoc.
    + intros -> Hm lo d Hl Hd. rewrite (serve_accepted _ req w req' Hok).
      open_run. rewrite Hbase. cbn. rewrite Hm, Hl. cbn. rewrite Hd. cbn.
      now rewrite <- app_assoc.
Qed.


(** C5, amended.  Validation decodes the texts of [nodeTypeAndVersion],
    [currentNodeParameters] and, when supplied, [credentials], in that
    order and up to the first that fails, and nothing else.  The handler of
    the options route decodes [loadOptions] itself, after the context is
    built and only when no method name is supplied (a missing or empty
    [methodName]).  So on an options request with a non-empty method name
    the value of [loadOptions] plays no part:
    the request runs exactly as it does with any other value, or without
    the key. *)
Theorem loadOptions_decoded_lazily
  (req : Request unit) (w : World) :
  (forall e, exists k,
      calls (validated e req w)
      = firstn k (map JsonParse (structuredTexts (query req))))
  /\ (forall req' : Request (Params.t Json),
        decodings (calls (handled Options req' w))
        = match truthy (Query.methodName (query req')),
                truthy (Query.loadOptions (query req')),
                fst (getBase (id (user req'))
                       (Params.currentNodeParameters (params req')) w) with
          | None, Some lo, inr _ => [JsonParse lo]
          | _, _, _ => []
          end)
  /\ (truthy (Query.methodName (query req)) <> None ->
      forall lo,
        served Options
          (withQuery (setField FLoadOptions lo (query req)) req) w
        = served Options req w).
Proof.
  split; [|split].
  - intros e. apply validate_calls.
  - intros req'. unfold decodings. open_run.
    destruct (getBase _ _ w) as [[t|ad] w1]; cbn;
      repeat step; reflexivity.
  - intros Hm lo. open_run. repeat step; congruence.
Qed.

(** C4, amended.  When [nodeTypeAndVersion] and [currentNodeParameters] are
    both supplied with a non-empty text and one of the structured keys
    [nodeTypeAndVersion], [currentNodeParameters], [credentials] holds a
    non-empty text that is not JSON, [parseQueryParams] throws the parse
    error of the first such text, having decoded the texts before it and
    none after it.  That error differs from every missing-parameter error.
    In either chaining of the middlewares the request fails, the world is
    untouched and neither the context builder nor the resolution service is
    called.  The failure of the request is that parse error on the options
    route, on the two other routes when a method name is supplied, and on
    every route when [parseQueryParams] is chained first. *)
Theorem malformed_json_rejected
  (o : Chaining) (e : Endpoint) (req : Request unit) (w : World)
  (text : string) :
  truthy (Query.nodeTypeAndVersion (query req)) <> None ->
  truthy (Query.currentNodeParameters (query req)) <> None ->
  In text (structuredTexts (query req)) ->
  jsonDecode text = None ->
  exists before bad after,
    structuredTexts (query req) = before ++ bad :: after
    /\ Forall (fun s => jsonDecode s <> None) before
    /\ jsonDecode bad = None
    /\ parsed req w
       = {| outcome := inl (ParseError bad); world := w;
            calls := map JsonParse (before ++ [bad]) |}
    /\ (forall field,
          ParseError (Failure:=Failure) bad <> missingParameter field)
    /\ (exists t, outcome (servedIn o e req w) = inl t)
    /\ world (servedIn o e req w) = w
    /\ contextBuilds (calls (servedIn o e req w)) = []
    /\ resolutions (calls (servedIn o e req w)) = []
    /\ (o = ControllerMiddlewareFirst \/ e = Options
        \/ truthy (Query.methodName (query req)) <> None ->
        servedIn o e req w
        = {| outcome := inl (ParseError bad); world := w;
             calls := map JsonParse (before ++ [bad]) |}).
Proof.
  intros Hn Hc Hin Hnone.
  destruct (first_malformed _ _ Hin Hnone)
    as (before & bad & after & Htexts & Hall & Hbad).
  pose proof (parseQueryParams_malformed req w before bad after
                Hn Hc Htexts Hall Hbad) as Hparsed.
  destruct (serveIn_refused o e req w _ _ Hparsed) as [Hpass Hstop].
  destruct (decodings_hold_no_collaborator (before ++ [bad]))
    as [Hctx Hres].
  exists before, bad, after.
  do 4 (split; [assumption|]). split; [discriminate|].
  assert (Hgate :
            (o = ControllerMiddlewareFirst \/ e = Options
             \/ truthy (Query.methodName (query req)) <> None)
            \/ (o = RouteMiddlewaresFirst /\ e <> Options
                /\ truthy (Query.methodName (query req)) = None)).
  { destruct o; [|now left; left].
    destruct (truthy (Query.methodName (query req)));
      [left; right; right; discriminate|].
    destruct e; [now left; right; left | right | right];
      repeat split; discriminate. }
  destruct Hgate as [Hgate | (Ho & He & Hm)].
  - rewrite (Hpass Hgate). cbn. repeat split; eauto.
  - rewrite (Hstop Ho He Hm). cbn. repeat split; eauto.
    intros [Hc' | [He' | Hm']]; congruence.
Qed.



(** X1.  How [parseQueryParams] fails.  A missing (or empty)
    [nodeTypeAndVersion] is reported first and a missing
    [currentNodeParameters] second, both before anything is decoded and
    whatever the other keys hold, malformed texts included.  With both keys
    there, the failure is the parse error of the first text, in the order
    [nodeTypeAndVersion], [currentNodeParameters], [credentials], that is
    not JSON: the texts before it were decoded, the texts after it were
    never handed to [jsonParse].  In every case the world is left as it
    was, and these are the only ways [parseQueryParams] fails. *)
Theorem parseQueryParams_first_failure
  {P} (req : Request P) (w : World) :
  (truthy (Query.nodeTypeAndVersion (query req)) = None ->
   parsed req w
   = {| outcome :=
          inl (BadRequestError "Parameter nodeTypeAndVersion is required.");
        world := w; calls := [] |})
  /\ (truthy (Query.nodeTypeAndVersion (query req)) <> None ->
      truthy (Query.currentNodeParameters (query req)) = None ->
      parsed req w
      = {| outcome :=
             inl (BadRequestError
                    "Parameter currentNodeParameters is required.");
           world := w; calls := [] |})
  /\ (truthy (Query.nodeTypeAndVersion (query req)) <> None ->
      truthy (Query.currentNodeParameters (query req)) <> None ->
      forall before text after,
        structuredTexts (query req) = before ++ text :: after ->
        Forall (fun s => jsonDecode s <> None) before ->
        jsonDecode text = None ->
        parsed req w
        = {| outcome := inl (ParseError text); world := w;
             calls := map JsonParse (before ++ [text]) |})
  /\ (forall t,
        outcome (parsed req w) = inl t ->
        truthy (Query.nodeTypeAndVersion (query req)) = None
        \/ truthy (Query.currentNodeParameters (query req)) = None
        \/ exists text, In text (structuredTexts (query req))
                        /\ jsonDecode text = None).
Proof.
  split; [|split; [|split]].
  - intros Hn. rewrite (parseQueryParams_missing req w (or_introl Hn)).
    now rewrite Hn.
  - intros Hn Hc. rewrite (parseQueryParams_missing req w (or_intror Hc)).
    now destruct (truthy (Query.nodeTypeAndVersion (query req))).
  - intros Hn Hc before text after.
    now apply parseQueryParams_malformed.
  - unfold structuredTexts, present. intros t. open_run.
    repeat step; intros H; try discriminate H; auto;
      right; right; eexists; (split; [|eassumption]);
      cbn; auto.
Qed.

(** X2.  When [parseQueryParams] lets a request through, and what it hands
    on.  It accepts exactly when [nodeTypeAndVersion] and
    [currentNodeParameters] are supplied and are JSON, and [credentials] is
    JSON if it is supplied.  The request it hands on has the same user and
    the same query; its [params] are the three decoded values, with
    [undefined] for credentials that were not supplied.  The world is
    untouched and the recorded calls are the decodings of the supplied
    texts, in order. *)
Theorem parseQueryParams_accepts {P} (req : Request P) (w : World) :
  let vc :=
    match truthy (Query.credentials (query req)) with
    | Some c => jsonDecode c
    | None => None
    end in
  (forall req',
      outcome (parsed req w) = inr req' ->
      exists a b va vb,
        truthy (Query.nodeTypeAndVersion (query req)) = Some a
        /\ truthy (Query.currentNodeParameters (query req)) = Some b
        /\ jsonDecode a = Some va
        /\ jsonDecode b = Some vb
        /\ (forall c, truthy (Query.credentials (query req)) = Some c ->
                      jsonDecode c <> None)
        /\ req' = {| user := user req; query := query req;
                     params := Params.Build va vb vc |})
  /\ (forall a b va vb,
        truthy (Query.nodeTypeAndVersion (query req)) = Some a ->
        truthy (Query.currentNodeParameters (query req)) = Some b ->
        jsonDecode a = Some va ->
        jsonDecode b = Some vb ->
        (forall c, truthy (Query.credentials (query req)) = Some c ->
                   jsonDecode c <> None) ->
        parsed req w
        = {| outcome := inr {| user := user req; query := query req;
                               params := Params.Build va vb vc |};
             world := w;
             calls := map JsonParse (structuredTexts (query req)) |}).
Proof.
  unfold structuredTexts, present. cbv zeta. split.
  - intros req'. open_run. repeat step; intros H; try discriminate H;
      injection H as <-; do 4 eexists;
      repeat (split; [eassumption || reflexivity|]);
      (split; [|reflexivity]); intros c Hc; congruence.
  - intros a b va vb Ha Hb Hva Hvb Hcred. open_run.
    rewrite Ha, Hb. cbn. rewrite Hva, Hvb. cbn.
    destruct (truthy (Query.credentials (query req))) as [c|] eqn:Hc;
      [|reflexivity].
    cbn. destruct (jsonDecode c) as [v|] eqn:Hv; [reflexivity|].
    now destruct (Hcred c eq_refl).
Qed.

(** X3.  The two middlewares commute on the requests they accept.  Whether
    [assertMethodName] runs before [parseQueryParams] or after it, the same
    requests get through, and a request that gets through does so with the
    same decodings and the same [req.params]: with a method name in the
    query the two chains are the same computation.  The order matters only
    for a request without method name, which both chains refuse. *)
Theorem middlewares_commute_on_acceptance
  {P} (req : Request P) (w : World) :
  let routeFirst :=
    @bind Json AdditionalData Failure World _ _
      (assertMethodName req) (parseQueryParams jsonDecode) w in
  let controllerFirst :=
    @bind Json AdditionalData Failure World _ _
      (parseQueryParams jsonDecode req) assertMethodName w in
  (truthy (Query.methodName (query req)) <> None ->
   routeFirst = controllerFirst)
  /\ (truthy (Query.methodName (query req)) = None ->
      exists t t', outcome routeFirst = inl t
                   /\ outcome controllerFirst = inl t')
  /\ (forall req', outcome routeFirst = inr req'
                   <-> outcome controllerFirst = inr req').
Proof.
  cbv zeta. split; [|split].
  - intros Hm. open_run. repeat step; congruence.
  - intros Hm. open_run. repeat step; eauto.
  - intros req'. open_run. repeat step; split; intros H;
      solve [discriminate H | exact H].
Qed.

(** X4.  A route is blind to the optional keys it does not take from the
    query: [filter] and [paginationToken] on the options route,
    [loadOptions] on the resource-locator-results route, and all three on
    the resource-mapper-fields route can be added, changed or removed
    without any effect on the calls made, on the world or on the answer. *)
Theorem unread_keys_have_no_effect
  (e : Endpoint) (f : OptionalField) (v : option string)
  (req : Request unit) (w : World) :
  destructures e f = false ->
  served e (withQuery (setField f v (query req)) req) w = served e req w.
Proof.
  destruct e, f; intros H; try discriminate H;
    open_run; repeat step; reflexivity.
Qed.


(** X6.  A request is answered with a value only when every step before the
    answer went through: validation accepted it, the execution context was
    built, every text handed to [jsonParse] was JSON, and, unless it is an
    options request without any selector, the resolution service was
    called.  *)
Theorem success_means_every_step_succeeded
  (e : Endpoint) (req : Request unit) (w : World) (v : Result e) :
  outcome (served e req w) = inr v ->
  (exists req' ad w1,
      outcome (validated e req w) = inr req'
      /\ getBase (id (user req))
           (Params.currentNodeParameters (params req')) w = (inr ad, w1))
  /\ (forall text, In (JsonParse text) (calls (served e req w)) ->
                   jsonDecode text <> None)
  /\ (resolutions (calls (served e req w)) = [] ->
      e = Options
      /\ truthy (Query.methodName (query req)) = None
      /\ truthy (Query.loadOptions (query req)) = None).
Proof.
  unfold resolutions.
  destruct e; open_run; repeat step; intros H; try discriminate H;
    (split; [do 3 eexists; split; [reflexivity | eassumption]|]);
    (split;
     [ intros text Hin; cbn in Hin;
       repeat (destruct Hin as [Heq | Hin];
               [try discriminate Heq; injection Heq as <-; congruence|]);
       contradiction
     | cbn; intros Hnone; try discriminate Hnone; auto ]).
Qed.

(** X7.  What the resolution service is given.  In every call it receives,
    the node type and the parameter snapshot are the decoded
    [nodeTypeAndVersion] and [currentNodeParameters] of the query, the
    execution context is the one [getBase] built for the user of the request
    from that same snapshot, the path, when the method takes one, is the
    [path] of the query as it came, and the method name, when the method
    takes one, is the [methodName] of the query and is not empty. *)
Theorem resolution_call_arguments
  (e : Endpoint) (req : Request unit) (w : World)
  (c : Call Json AdditionalData) :
  In c (calls (served e req w)) ->
  isResolution c = true ->
  (exists a b n p ad w1,
      truthy (Query.nodeTypeAndVersion (query req)) = Some a
      /\ jsonDecode a = Some n /\ nodeTypeOf c = Some n
      /\ truthy (Query.currentNodeParameters (query req)) = Some b
      /\ jsonDecode b = Some p /\ snapshotOf c = Some p
      /\ getBase (id (user req)) p w = (inr ad, w1)
      /\ contextOf c = Some ad)
  /\ (forall p, pathOf c = Some p -> p = Query.path (query req))
  /\ (forall m, methodNameOf c = Some m ->
                m = Query.methodName (query req) /\ truthy m <> None).
Proof.
  assert (Hsame : forall v s, truthy v = Some s -> v = Some s).
  { intros [[|a s']|] s H; cbn in H; congruence. }
  destruct e; open_run; repeat step; intros Hin Hres; pick_call Hin;
    (split; [do 6 eexists; repeat split; eassumption || reflexivity|]);
    (split; [intros p Hp; cbn in Hp; congruence|]);
    intros m Hm; cbn in Hm; try discriminate Hm; injection Hm as <-;
    first
      [ split; [reflexivity | congruence]
      | match goal with
        | H : truthy _ = Some ?s |- Some ?s = _ /\ _ =>
            rewrite <- (Hsame _ _ H); split; [reflexivity | congruence]
        end ].
Qed.

(** X8.  On the options route a descriptor that is not JSON is found out
    late.  [loadOptions] is decoded only after the execution context has
    been built, so an options request without method name whose
    [loadOptions] is malformed still has [getBase] called for it, with
    whatever that does to the world.  If the builder fails, its failure is
    the answer and the descriptor is never decoded; otherwise the answer is
    the parse error of the descriptor.  The resolution service is not
    called either way. *)
Theorem malformed_descriptor_found_after_context
  (req : Request unit) (w : World) (req' : Request (Params.t Json))
  (lo : string) :
  outcome (validated Options req w) = inr req' ->
  truthy (Query.methodName (query req)) = None ->
  truthy (Query.loadOptions (query req)) = Some lo ->
  jsonDecode lo = None ->
  let build :=
    GetBase (id (user req)) (Params.currentNodeParameters (params req')) in
  let built :=
    getBase (id (user req)) (Params.currentNodeParameters (params req')) w in
  world (served Options req w) = snd built
  /\ resolutions (calls (served Options req w)) = []
  /\ match fst built with
     | inl t =>
         outcome (served Options req w) = inl t
         /\ calls (served Options req w)
            = calls (validated Options req w) ++ [build]
     | inr _ =>
         outcome (served Options req w) = inl (ParseError lo)
         /\ calls (served Options req w)
            = calls (validated Options req w) ++ [build; JsonParse lo]
     end.
Proof.
  intros Hok Hm Hl Hbad build built.
  destruct (validate_ok Options req w req' Hok) as (Hu & Hq & _).
  destruct (validate_no_collaborator Options req w) as [Hres _].
  rewrite (serve_accepted Options req w req' Hok).
  unfold resolutions in *. cbn [calls outcome world].
  rewrite !filter_app, Hres.
  subst build built. rewrite <- Hu.
  open_run. rewrite Hq, Hm, Hl.
  destruct (getBase _ _ w) as [[t|ad] w1]; cbn;
    [|rewrite Hbad; cbn]; repeat split; reflexivity.
Qed.

End Properties.

(** C2 at a request that lacks both [methodName] and [nodeTypeAndVersion]. *)
Lemma methodName_checked_first_witness :
  (ResourceLocatorResults = ResourceLocatorResults
   \/ ResourceLocatorResults = ResourceMapperFields)
  /\ truthy (Query.methodName Query.empty) = None
  /\ truthy (Query.nodeTypeAndVersion Query.empty) = None
  /\ exists message,
      Example.serve ResourceLocatorResults
        (Example.request "u1" Query.empty) 0
      = {| outcome := inl (BadRequestError message);
           world := 0; calls := [] |}
      /\ mentions "methodName" message = true
      /\ mentions "nodeTypeAndVersion" message = false.
Proof.
  split; [left; reflexivity|]. split; [reflexivity|]. split; [reflexivity|].
  apply (methodName_checked_first Example.decode Example.getBase
           Example.service ResourceLocatorResults
           (Example.request "u1" Query.empty) 0).
  - left; reflexivity.
  - reflexivity.
Defined.

(** C3 on the resource-locator-results route, at a request that has neither
    [nodeTypeAndVersion] nor [methodName], with [parseQueryParams] chained
    first. *)
Lemma required_fields_checked_witness :
  let req := Example.request "u1" Query.empty in
  (truthy (Query.nodeTypeAndVersion (query req)) = None
   \/ truthy (Query.currentNodeParameters (query req)) = None)
  /\ Example.parseQueryParams req 0
     = {| outcome :=
            inl (BadRequestError "Parameter nodeTypeAndVersion is required.");
          world := 0; calls := [] |}
  /\ Example.serveIn ControllerMiddlewareFirst ResourceLocatorResults req 0
     = {| outcome :=
            inl (BadRequestError "Parameter nodeTypeAndVersion is required.");
          world := 0; calls := [] |}
  /\ mentions "nodeTypeAndVersion"
       "Parameter nodeTypeAndVersion is required." = true.
Proof.
  intros req.
  assert (Hmissing :
            truthy (Query.nodeTypeAndVersion (query req)) = None
            \/ truthy (Query.currentNodeParameters (query req)) = None)
    by (left; reflexivity).
  destruct (required_fields_checked Example.decode Example.getBase
              Example.service ControllerMiddlewareFirst
              ResourceLocatorResults req 0 Hmissing)
    as (Hparsed & _ & _ & Hserved).
  split; [exact Hmissing|]. split; [exact Hparsed|].
  split; [|reflexivity].
  exact (Hserved (or_introl eq_refl)).
Defined.

(** C1 as written fails when the context cannot be built: an options request
    without any selector, valid in every other respect, is answered with the
    failure of [getBase] and not with the empty list. *)
Lemma options_without_selector_can_fail :
  ~ (forall (req : Request unit) (w : Example.World),
        truthy (Query.methodName (query req)) = None ->
        truthy (Query.loadOptions (query req)) = None ->
        outcome (Example.serve Options req w) = inr []).
Proof.
  intros claim.
  specialize (claim (Example.request "ghost" Example.baseQuery) 0
                eq_refl eq_refl).
  discriminate claim.
Qed.

(** C1 amended, on a request that brings both selectors: only the method is
    called. *)
Lemma options_mode_selection_witness :
  let req := Example.request "u1" Example.bothSelectors in
  outcome (Example.validate Options req 0)
  = inr (Example.accepted "u1" Example.bothSelectors None)
  /\ Example.getBase "u1" (Example.JObject []) 0 = (inr "u1", 1)
  /\ resolutions (calls (Example.serve Options req 0))
     = [GetOptionsViaMethodName "getUrls" (Some "parameters.url") "u1"
          Example.nodeType (Example.JObject []) None].
Proof.
  intros req. split; [reflexivity|]. split; [reflexivity|].
  exact (proj2 (options_mode_selection Example.decode Example.getBase
                  Example.service req 0)
           (Example.accepted "u1" Example.bothSelectors None) "u1" 1
           eq_refl eq_refl).
Defined.

(** C4 as written fails when another required key is missing: with
    [nodeTypeAndVersion=not-json] and no [currentNodeParameters] the answer
    is the missing-parameter error. *)
Lemma malformed_json_reported_as_missing :
  ~ (forall (e : Endpoint) (req : Request unit) (w : Example.World)
            (text : string),
        In text (structuredTexts (query req)) ->
        Example.decode text = None ->
        exists t,
          outcome (Example.serve e req w) = inl t
          /\ isClientFault Example.declared t = true
          /\ (forall field, t <> missingParameter field)
          /\ resolutions (calls (Example.serve e req w)) = []).
Proof.
  intros claim.
  destruct (claim Options
              (Example.request "u1"
                 (Query.Build None (Some "not-json") None
                    None None None None None))
              0 "not-json" (or_introl eq_refl) eq_refl)
    as (t & thrown & _ & distinct & _).
  injection thrown as <-.
  now apply (distinct "currentNodeParameters").
Qed.

(** C4 amended, at [credentials=not-json] on a complete mapper request. *)
Lemma malformed_json_rejected_witness :
  let q := setField FCredentials (Some "not-json") Example.bothSelectors in
  let req := Example.request "u1" q in
  truthy (Query.nodeTypeAndVersion q) <> None
  /\ truthy (Query.currentNodeParameters q) <> None
  /\ In "not-json" (structuredTexts q)
  /\ Example.decode "not-json" = None
  /\ exists before bad after,
      structuredTexts q = (before ++ bad :: after)%list
      /\ Forall (fun s => Example.decode s <> None) before
      /\ Example.decode bad = None
      /\ Example.parseQueryParams req 0
         = {| outcome := inl (ParseError bad); world := 0;
              calls := map JsonParse (before ++ [bad])%list |}
      /\ (forall field,
            ParseError (Failure:=Example.Failure) bad
            <> missingParameter field)
      /\ (exists t,
            outcome (Example.serveIn RouteMiddlewaresFirst
                       ResourceMapperFields req 0) = inl t)
      /\ world (Example.serveIn RouteMiddlewaresFirst
                  ResourceMapperFields req 0) = 0
      /\ contextBuilds
           (calls (Example.serveIn RouteMiddlewaresFirst
                     ResourceMapperFields req 0)) = []
      /\ resolutions
           (calls (Example.serveIn RouteMiddlewaresFirst
                     ResourceMapperFields req 0)) = []
      /\ (RouteMiddlewaresFirst = ControllerMiddlewareFirst
          \/ ResourceMapperFields = Options
          \/ truthy (Query.methodName (query req)) <> None ->
          Example.serveIn RouteMiddlewaresFirst ResourceMapperFields req 0
          = {| outcome := inl (ParseError bad); world := 0;
               calls := map JsonParse (before ++ [bad])%list |}).
Proof.
  intros q req.
  assert (Hn : truthy (Query.nodeTypeAndVersion q) <> None) by discriminate.
  assert (Hc : truthy (Query.currentNodeParameters q) <> None)
    by discriminate.
  assert (Hin : In "not-json" (structuredTexts q))
    by (right; right; left; reflexivity).
  do 4 (split; [assumption || reflexivity|]).
  exact (malformed_json_rejected Example.decode Example.getBase
           Example.service RouteMiddlewaresFirst ResourceMapperFields
           req 0 "not-json" Hn Hc Hin eq_refl).
Defined.

(** C5 as written fails at [methodName=]: the key is in the query, but its
    value is empty, so the handler takes the descriptor mode, decodes
    [loadOptions=not-json] and the request fails with its parse error. *)
Lemma empty_methodName_lets_loadOptions_fail :
  ~ (forall (req : Request unit) (w : Example.World) (lo : string),
        Query.methodName (query req) <> None ->
        Query.loadOptions (query req) = Some lo ->
        Example.decode lo = None ->
        ~ In (JsonParse lo) (calls (Example.serve Options req w))
        /\ outcome (Example.serve Options req w) <> inl (ParseError lo)).
Proof.
  intros claim.
  destruct (claim (Example.request "u1" Example.emptyMethodName) 0
              "not-json")
    as [_ survives]; [discriminate | reflexivity | reflexivity |].
  now apply survives.
Qed.

(** C5 amended, on an options request with a method name: a [loadOptions] that is not
    JSON changes nothing, the options of the method are returned. *)
Lemma loadOptions_decoded_lazily_witness :
  let req := Example.request "u1" Example.bothSelectors in
  truthy (Query.methodName (query req)) <> None
  /\ Example.decode "not-json" = None
  /\ Example.serve Options
       (withQuery (setField FLoadOptions (Some "not-json") (query req)) req) 0
     = Example.serve Options req 0
  /\ outcome (Example.serve Options req 0) = inr [("A", "a")].
Proof.
  intros req.
  assert (Hm : truthy (Query.methodName (query req)) <> None)
    by discriminate.
  split; [exact Hm|]. split; [reflexivity|]. split; [|reflexivity].
  exact (proj2 (proj2 (loadOptions_decoded_lazily Example.decode
                         Example.getBase Example.service req 0))
           Hm (Some "not-json")).
Defined.

(** C6 on a mapper request of a user for whom no context can be built. *)
Lemma context_built_once_after_validation_witness :
  let q := setField FMethodName (Some "searchSheets") Example.baseQuery in
  let req := Example.request "ghost" q in
  outcome (Example.validate ResourceMapperFields req 0)
  = inr (Example.accepted "ghost" q None)
  /\ Example.getBase "ghost" (Example.JObject []) 0
     = (inl (Other (500, "no runtime context")), 1)
  /\ contextBuilds (calls (Example.serve ResourceMapperFields req 0))
     = [GetBase "ghost" (Example.JObject [])]
  /\ resolutions (calls (Example.serve ResourceMapperFields req 0)) = []
  /\ outcome (Example.serve ResourceMapperFields req 0)
     = inl (Other (500, "no runtime context")).
Proof.
  intros q req. split; [reflexivity|]. split; [reflexivity|].
  destruct (proj2 (context_built_once_after_validation Example.decode
                     Example.getBase Example.service
                     ResourceMapperFields req 0)
              (Example.accepted "ghost" q None) eq_refl)
    as (after & _ & _ & _ & _ & once & failed).
  split; [exact once|]. split; [reflexivity|].
  exact (proj1 (failed (Other (500, "no runtime context")) 1 eq_refl)).
Defined.

(** C7 on an options request served by the method [getUrls], and on a
    locator search for which the service has no result: the [undefined] of
    the service is the answer. *)
Lemma resolution_result_returned_unchanged_witness :
  let opt := Example.request "u1" Example.bothSelectors in
  let q := setField FMethodName (Some "searchSheets") Example.baseQuery in
  let req := Example.request "u1" q in
  let c :=
    GetResourceLocatorResults (Some "searchSheets") (Some "parameters.url")
      "u1" Example.nodeType (Example.JObject []) None None None in
  (outcome (Example.validate Options opt 0)
   = inr (Example.accepted "u1" Example.bothSelectors None)
   /\ Example.getBase "u1" (Example.JObject []) 0 = (inr "u1", 1)
   /\ truthy (Query.methodName (query opt)) = Some "getUrls"
   /\ Example.serve Options opt 0
      = {| outcome := inr [("A", "a")]; world := 2;
           calls :=
             (calls (Example.validate Options opt 0)
                ++ [GetBase "u1" (Example.JObject [])]
                ++ [GetOptionsViaMethodName "getUrls"
                      (Some "parameters.url") "u1" Example.nodeType
                      (Example.JObject []) None])%list |})
  /\ In c (calls (Example.serve ResourceLocatorResults req 0))
  /\ isResolution c = true
  /\ outcome (Example.serve ResourceLocatorResults req 0) = inr None
  /\ exists f u p ad w1,
      resolve Example.service ResourceLocatorResults c = Some f
      /\ resolutions (calls (Example.serve ResourceLocatorResults req 0))
         = [c]
      /\ In (GetBase u p) (calls (Example.serve ResourceLocatorResults req 0))
      /\ Example.getBase u p 0 = (inr ad, w1)
      /\ outcome (Example.serve ResourceLocatorResults req 0) = fst (f w1)
      /\ world (Example.serve ResourceLocatorResults req 0) = snd (f w1).
Proof.
  intros opt q req c.
  assert (Hin : In c (calls (Example.serve ResourceLocatorResults req 0)))
    by (right; right; right; left; reflexivity).
  split.
  - do 3 (split; [reflexivity|]).
    destruct (proj2 (resolution_result_returned_unchanged Example.decode
                       Example.getBase Example.service Options opt 0)
                (Example.accepted "u1" Example.bothSelectors None) "u1" 1
                eq_refl eq_refl)
      as (_ & _ & Hmethod & _).
    exact (Hmethod eq_refl "getUrls" eq_refl).
  - split; [exact Hin|]. split; [reflexivity|]. split; [reflexivity|].
    exact (proj1 (resolution_result_returned_unchanged Example.decode
                    Example.getBase Example.service
                    ResourceLocatorResults req 0)
             c Hin eq_refl).
Defined.





(** C10 on an options request without selector whose context cannot be
    built: the builder is called, the request fails with its failure. *)
Lemma options_without_selector_builds_context_witness :
  let req := Example.request "ghost" Example.baseQuery in
  truthy (Query.methodName (query req)) = None
  /\ truthy (Query.loadOptions (query req)) = None
  /\ outcome (Example.validate Options req 0)
     = inr (Example.accepted "ghost" Example.baseQuery None)
  /\ contextBuilds (calls (Example.serve Options req 0))
     = [GetBase "ghost" (Example.JObject [])]
  /\ resolutions (calls (Example.serve Options req 0)) = []
  /\ outcome (Example.serve Options req 0)
     = inl (Other (500, "no runtime context")).
Proof.
  intros req. split; [reflexivity|]. split; [reflexivity|].
  split; [reflexivity|].
  destruct (proj2 (options_without_selector_builds_context Example.decode
                     Example.getBase Example.service req 0)
              (Example.accepted "ghost" Example.baseQuery None)
              eq_refl eq_refl eq_refl)
    as (_ & once & none & _ & failed).
  split; [exact once|]. split; [exact none|]. exact failed.
Defined.

(** X1 on a request whose snapshot is not JSON: the node type was decoded,
    the credentials were not. *)
Lemma parseQueryParams_first_failure_witness :
  let req := Example.request "u1" Example.brokenSnapshot in
  truthy (Query.nodeTypeAndVersion (query req)) <> None
  /\ truthy (Query.currentNodeParameters (query req)) <> None
  /\ structuredTexts (query req)
     = ([Example.httpRequestNode] ++ "not-json" :: [Example.basicAuth])%list
  /\ Forall (fun s => Example.decode s <> None) [Example.httpRequestNode]
  /\ Example.decode "not-json" = None
  /\ Example.parseQueryParams req 0
     = {| outcome := inl (ParseError "not-json"); world := 0;
          calls := [JsonParse Example.httpRequestNode;
                    JsonParse "not-json"] |}.
Proof.
  intros req.
  assert (Hn : truthy (Query.nodeTypeAndVersion (query req)) <> None)
    by discriminate.
  assert (Hc : truthy (Query.currentNodeParameters (query req)) <> None)
    by discriminate.
  assert (Hall : Forall (fun s => Example.decode s <> None)
                   [Example.httpRequestNode])
    by (repeat constructor; discriminate).
  do 2 (split; [assumption|]). split; [reflexivity|].
  split; [exact Hall|]. split; [reflexivity|].
  exact (proj1 (proj2 (proj2
           (parseQueryParams_first_failure
              (AdditionalData:=Example.AdditionalData)
              (Failure:=Example.Failure) (World:=Example.World)
              Example.decode req 0)))
           Hn Hc [Example.httpRequestNode] "not-json" [Example.basicAuth]
           eq_refl Hall eq_refl).
Defined.

(** X2 on the locator search with credentials. *)
Lemma parseQueryParams_accepts_witness :
  let req := Example.request "u1" Example.sheetSearch in
  truthy (Query.nodeTypeAndVersion (query req))
  = Some Example.httpRequestNode
  /\ truthy (Query.currentNodeParameters (query req)) = Some "{}"
  /\ Example.decode Example.httpRequestNode = Some Example.nodeType
  /\ Example.decode "{}" = Some (Example.JObject [])
  /\ Example.parseQueryParams req 0
     = {| outcome :=
            inr (Example.accepted "u1" Example.sheetSearch
                   (Some Example.basicAuthReference));
          world := 0;
          calls := [JsonParse Example.httpRequestNode; JsonParse "{}";
                    JsonParse Example.basicAuth] |}.
Proof.
  intros req. do 4 (split; [reflexivity|]).
  refine (proj2 (parseQueryParams_accepts
                   (AdditionalData:=Example.AdditionalData)
                   (Failure:=Example.Failure)
                   Example.decode req 0)
            Example.httpRequestNode "{}" Example.nodeType
            (Example.JObject []) eq_refl eq_refl eq_refl eq_refl _).
  intros c Hc. injection Hc as <-. discriminate.
Defined.

(** X3 on the locator search: both orders of the middlewares give the same
    run. *)
Lemma middlewares_commute_on_acceptance_witness :
  let req := Example.request "u1" Example.sheetSearch in
  truthy (Query.methodName (query req)) <> None
  /\ bind (assertMethodName req) (Example.parseQueryParams) 0
     = bind (Example.parseQueryParams req) assertMethodName 0.
Proof.
  intros req.
  assert (Hm : truthy (Query.methodName (query req)) <> None)
    by discriminate.
  split; [exact Hm|].
  exact (proj1 (middlewares_commute_on_acceptance Example.decode req 0) Hm).
Defined.

(** X4: a [filter] on the resource-mapper-fields route changes nothing. *)
Lemma unread_keys_have_no_effect_witness :
  let req := Example.request "u1" Example.sheetSearch in
  destructures ResourceMapperFields FFilter = false
  /\ Example.serve ResourceMapperFields
       (withQuery (setField FFilter (Some "abc") (query req)) req) 0
     = Example.serve ResourceMapperFields req 0.
Proof.
  intros req. split; [reflexivity|].
  exact (unread_keys_have_no_effect Example.decode Example.getBase
           Example.service ResourceMapperFields FFilter (Some "abc")
           req 0 eq_refl).
Defined.


(** X6 on an options request answered by the method [getUrls]. *)
Lemma success_means_every_step_succeeded_witness :
  let req := Example.request "u1" Example.bothSelectors in
  outcome (Example.serve Options req 0) = inr [("A", "a")]
  /\ (exists req' ad w1,
         outcome (Example.validate Options req 0) = inr req'
         /\ Example.getBase "u1"
              (Params.currentNodeParameters (params req')) 0
            = (inr ad, w1))
  /\ (forall text,
         In (JsonParse text) (calls (Example.serve Options req 0)) ->
         Example.decode text <> None).
Proof.
  intros req.
  assert (Hok : outcome (Example.serve Options req 0) = inr [("A", "a")])
    by reflexivity.
  split; [exact Hok|].
  destruct (success_means_every_step_succeeded Example.decode
              Example.getBase Example.service Options req 0
              [("A", "a")] Hok) as (Hsteps & Hdecoded & _).
  split; [exact Hsteps | exact Hdecoded].
Defined.

(** X7 on the locator search. *)
Lemma resolution_call_arguments_witness :
  let req := Example.request "u1" Example.sheetSearch in
  let c :=
    GetResourceLocatorResults (Some "searchSheets") (Some "parameters.url")
      "u1" Example.nodeType (Example.JObject [])
      (Some Example.basicAuthReference) (Some "") None in
  In c (calls (Example.serve ResourceLocatorResults req 0))
  /\ isResolution c = true
  /\ (forall m, methodNameOf c = Some m ->
                m = Query.methodName (query req) /\ truthy m <> None)
  /\ (forall p, pathOf c = Some p -> p = Query.path (query req)).
Proof.
  intros req c.
  assert (Hin : In c (calls (Example.serve ResourceLocatorResults req 0)))
    by (right; right; right; right; left; reflexivity).
  split; [exact Hin|]. split; [reflexivity|].
  destruct (resolution_call_arguments Example.decode Example.getBase
              Example.service ResourceLocatorResults req 0 c Hin eq_refl)
    as (_ & Hpath & Hmethod).
  split; [exact Hmethod | exact Hpath].
Defined.

(** X8 on [GET /options?...&loadOptions=not-json]: the context is built,
    then the descriptor is refused. *)
Lemma malformed_descriptor_found_after_context_witness :
  let req := Example.request "u1" Example.brokenDescriptor in
  outcome (Example.validate Options req 0)
  = inr (Example.accepted "u1" Example.brokenDescriptor None)
  /\ truthy (Query.methodName (query req)) = None
  /\ truthy (Query.loadOptions (query req)) = Some "not-json"
  /\ Example.decode "not-json" = None
  /\ world (Example.serve Options req 0) = 1
  /\ resolutions (calls (Example.serve Options req 0)) = []
  /\ outcome (Example.serve Options req 0) = inl (ParseError "not-json")
  /\ calls (Example.serve Options req 0)
     = (calls (Example.validate Options req 0)
          ++ [GetBase "u1" (Example.JObject []); JsonParse "not-json"])%list.
Proof.
  intros req. do 4 (split; [reflexivity|]).
  destruct (malformed_descriptor_found_after_context Example.decode
              Example.getBase Example.service req 0
              (Example.accepted "u1" Example.brokenDescriptor None)
              "not-json" eq_refl eq_refl eq_refl eq_refl)
    as (Hworld & Hnone & Hparse & Hcalls).
  split; [exact Hworld|]. split; [exact Hnone|].
  split; [exact Hparse | exact Hcalls].
Defined.
